(** * proxtop: the packaging descriptor [setup.py]

    The repository's only source file is a distutils descriptor.  Executed as
    a module it does three things, in this order:

    - [from distutils.core import setup] binds the name [setup];
    - [with open('README.rst') as file: long_description = file.read()]
      reads one file of the working directory;
    - [setup(name=..., ..., install_requires=[...])] calls the imported
      function with thirteen keyword arguments, twelve of them literals.

    The embedding below keeps that shape: Python values for the arguments,
    an environment that answers the import and the [open], and a small
    monad that threads the raised exception and logs what the module did. *)

From Stdlib Require Import String List Bool PeanoNat.
Import ListNotations.
Local Open Scope string_scope.
Local Open Scope list_scope.

(** ** Python values and keyword arguments *)

#[local] Set Warnings "-register-all".

(** The values that occur in the call: [str], [list] and [tuple]. *)
Inductive pyval : Type :=
| PStr (s : string)
| PList (items : list pyval)
| PTuple (items : list pyval).

(** The keyword arguments of a call: keyword and value, in the order the
    call writes them. *)
Definition kwargs : Type := list (string * pyval).

(** [kwargs.get(key)] *)
Fixpoint kw_get (key : string) (kw : kwargs) : option pyval :=
  match kw with
  | [] => None
  | (k, v) :: rest => if String.eqb k key then Some v else kw_get key rest
  end.

(** [bool(v)]: the empty string, list and tuple are the false values. *)
Definition truthy (v : pyval) : bool :=
  match v with
  | PStr s => negb (String.eqb s "")
  | PList items | PTuple items => negb (Nat.eqb (List.length items) 0)
  end.

(** [x in v] for a list or tuple [v] of strings. *)
Fixpoint str_in (x : string) (items : list pyval) : bool :=
  match items with
  | [] => false
  | PStr s :: rest => String.eqb s x || str_in x rest
  | _ :: rest => str_in x rest
  end.

(** ** Exceptions, the environment, the log *)

(** An exception, by the name of its class. *)
Inductive exn : Type :=
| PyExn (cls : string).

(** What a callable of the environment does with its keyword arguments:
    it returns (the module ignores the value) or raises. *)
Definition pyfun : Type := kwargs -> exn + unit.

(** A file as [open] finds it: the text a read delivers, and the exception
    that reading it raises, if any (an I/O or a decoding error). *)
Record disk_file : Type := {
  df_text : string;
  df_read_error : option exn
}.

(** Everything outside the module that its statements consult. *)
Record World : Type := {
  (** [from m import n]: the object found, or the exception raised. *)
  installed : string -> string -> exn + pyfun;
  (** [open(path)] relative to the working directory. *)
  files : string -> exn + disk_file
}.

(** An open text stream: [open] puts it at position 0. *)
Record file_obj : Type := {
  fo_name : string;
  fo_text : string;
  fo_pos : nat;
  fo_read_error : option exn
}.

Inductive event : Type :=
| EvImport (m n : string)
| EvOpen (path : string)
| EvRead (path : string) (text : string)
| EvClose (path : string)
| EvCall (callee : string) (kw : kwargs).

(** ** The execution monad: environment in, log and result out *)

Definition Exec (A : Type) : Type := World -> list event * (exn + A).

Definition ret {A : Type} (a : A) : Exec A :=
  fun _ => ([], inr a).

Definition bind {A B : Type} (m : Exec A) (k : A -> Exec B) : Exec B :=
  fun w =>
    match m w with
    | (t, inl e) => (t, inl e)
    | (t, inr a) => let (t', r) := k a w in (t ++ t', r)
    end.

Notation "x <- m ;; k" := (bind m (fun x => k))
  (at level 61, m at next level, right associativity).

(** [from m import n] *)
Definition import_from (m n : string) : Exec pyfun :=
  fun w =>
    match installed w m n with
    | inl e => ([], inl e)
    | inr f => ([EvImport m n], inr f)
    end.

(** [open(path)], default mode: a text stream for reading. *)
Definition py_open (path : string) : Exec file_obj :=
  fun w =>
    match files w path with
    | inl e => ([], inl e)
    | inr d => ([EvOpen path],
                inr {| fo_name := path; fo_text := df_text d; fo_pos := 0;
                       fo_read_error := df_read_error d |})
    end.

(** [file.read()] without a size: everything from the position to the end. *)
Definition py_read (file : file_obj) : Exec string :=
  fun _ =>
    match fo_read_error file with
    | Some e => ([], inl e)
    | None =>
        let s := substring (fo_pos file)
                           (String.length (fo_text file) - fo_pos file)
                           (fo_text file) in
        ([EvRead (fo_name file) s], inr s)
    end.

(** [with open(path) as file: body]: the stream is closed when the body
    is left, normally or by an exception, and the exception goes on. *)
Definition with_open {A : Type} (path : string) (body : file_obj -> Exec A)
  : Exec A :=
  fun w =>
    match py_open path w with
    | (t, inl e) => (t, inl e)
    | (t, inr file) =>
        let (t', r) := body file w in
        (t ++ t' ++ [EvClose (fo_name file)], r)
    end.

(** Calling [f] with keyword arguments [kw]; [callee] is the name the
    module uses for [f]. *)
Definition py_call (callee : string) (f : pyfun) (kw : kwargs) : Exec unit :=
  fun _ => ([EvCall callee kw], f kw).

(** ** The module *)

(** The keyword arguments of the call, lines 9 to 34.  The third classifier
    is two adjacent string literals, which Python joins. *)
Definition setup_kwargs (long_description : string) : kwargs :=
  [ ("name", PStr "proxtop");
    ("version", PStr "0.3.2");
    ("scripts", PList [PStr "proxtop"]);
    ("data_files",
      PList [PTuple [PStr "share/doc/proxtop";
                     PList [PStr "LICENSE.txt"; PStr "README.rst"]]]);
    ("description", PStr "Proxmox resource monitor");
    ("long_description", PStr long_description);
    ("author", PStr "Walter Doekes, OSSO B.V.");
    ("author_email", PStr "wjdoekes+proxtop@osso.nl");
    ("url", PStr "https://github.com/ossobv/proxtop");
    ("license", PStr "GPLv3+");
    ("platforms", PList [PStr "linux"]);
    ("classifiers",
      PList [PStr "Development Status :: 4 - Beta";
             PStr "Intended Audience :: System Administrators";
             PStr ("License :: OSI Approved :: GNU General Public License v3 "
                   ++ "or later (GPLv3+)");
             PStr "Operating System :: POSIX :: Linux";
             PStr "Programming Language :: Python :: 2.7";
             PStr "Programming Language :: Python :: 3";
             PStr "Topic :: System :: Clustering";
             PStr "Topic :: System :: Monitoring"]);
    ("install_requires",
      PList [PStr "proxmoxer>=0.1.7";
             PStr "requests>=2.2.0"]) ].

(** [setup.py], top to bottom. *)
Definition setup_py : Exec unit :=
  setup <- import_from "distutils.core" "setup" ;;
  long_description <- with_open "README.rst" (fun file => py_read file) ;;
  py_call "setup" setup (setup_kwargs long_description).

(** ** Reading an execution *)

Definition trace (w : World) : list event := fst (setup_py w).
Definition result (w : World) : exn + unit := snd (setup_py w).

(** The argument dictionaries of the calls of [setup], in order. *)
Fixpoint setup_calls (t : list event) : list kwargs :=
  match t with
  | [] => []
  | EvCall callee kw :: rest =>
      if String.eqb callee "setup" then kw :: setup_calls rest
      else setup_calls rest
  | _ :: rest => setup_calls rest
  end.

(** The texts that reads of [path] delivered, in order. *)
Fixpoint reads_of (path : string) (t : list event) : list string :=
  match t with
  | [] => []
  | EvRead p s :: rest =>
      if String.eqb p path then s :: reads_of path rest
      else reads_of path rest
  | _ :: rest => reads_of path rest
  end.

(** [setup] was called with [kw] in the execution in [w]. *)
Definition invoked_with (w : World) (kw : kwargs) : Prop :=
  In kw (setup_calls (trace w)).

(** [key] is among the keyword arguments and its value is not empty. *)
Definition supplied (key : string) (kw : kwargs) : bool :=
  match kw_get key kw with
  | Some v => truthy v
  | None => false
  end.

(** The configuration fields the packaging contract names. *)
Definition contract_fields : list string :=
  ["name"; "version"; "author"; "license"; "classifiers"; "install_requires"].

(** Whether [open('README.rst')] and the read after it both succeed. *)
Definition readme_readable (w : World) : bool :=
  match files w "README.rst" with
  | inl _ => false
  | inr d => match df_read_error d with Some _ => false | None => true end
  end.

(** The module raised and [setup] had not been called: the exception is
    one of the module's own statements'. *)
Definition raised_before_setup (w : World) (e : exn) : Prop :=
  result w = inl e /\ setup_calls (trace w) = [].

(** ** The four ways an execution goes *)

Inductive run_shape (w : World) : list event * (exn + unit) -> Prop :=
| ImportRaises e :
    installed w "distutils.core" "setup" = inl e ->
    run_shape w ([], inl e)
| OpenRaises f e :
    installed w "distutils.core" "setup" = inr f ->
    files w "README.rst" = inl e ->
    run_shape w ([EvImport "distutils.core" "setup"], inl e)
| ReadRaises f d e :
    installed w "distutils.core" "setup" = inr f ->
    files w "README.rst" = inr d ->
    df_read_error d = Some e ->
    run_shape w ([EvImport "distutils.core" "setup"; EvOpen "README.rst";
                  EvClose "README.rst"], inl e)
| SetupCalled f d :
    installed w "distutils.core" "setup" = inr f ->
    files w "README.rst" = inr d ->
    df_read_error d = None ->
    run_shape w ([EvImport "distutils.core" "setup"; EvOpen "README.rst";
                  EvRead "README.rst" (df_text d); EvClose "README.rst";
                  EvCall "setup" (setup_kwargs (df_text d))],
                 f (setup_kwargs (df_text d))).

(** ** Sample environments *)

Definition setup_returns : pyfun := fun _ => inr tt.
Definition setup_exits : pyfun := fun _ => inl (PyExn "SystemExit").

Definition readme_text : string := "proxtop
=======

Proxmox resource monitor.
".

(** distutils is there and the working directory holds a README.rst. *)
Definition checkout : World := {|
  installed := fun m n =>
    if String.eqb m "distutils.core" && String.eqb n "setup"
    then inr setup_returns else inl (PyExn "ImportError");
  files := fun path =>
    if String.eqb path "README.rst"
    then inr {| df_text := readme_text; df_read_error := None |}
    else inl (PyExn "IOError")
|}.

(** The same interpreter, run from a directory without README.rst. *)
Definition elsewhere : World := {|
  installed := installed checkout;
  files := fun _ => inl (PyExn "IOError")
|}.

(** README.rst is there, but its bytes do not decode. *)
Definition undecodable : World := {|
  installed := installed checkout;
  files := fun _ =>
    inr {| df_text := ""; df_read_error := Some (PyExn "UnicodeDecodeError") |}
|}.

(** An interpreter without distutils, in a directory with README.rst. *)
Definition no_distutils : World := {|
  installed := fun _ _ => inl (PyExn "ImportError");
  files := files checkout
|}.

(** Another machine: every path opens, every import resolves, [setup]
    leaves by SystemExit; README.rst has the same text as in [checkout]. *)
Definition other_machine : World := {|
  installed := fun _ _ => inr setup_exits;
  files := fun path =>
    inr {| df_text := if String.eqb path "README.rst" then readme_text
                      else "unrelated";
           df_read_error := None |}
|}.

(** README.rst is there and empty. *)
Definition empty_readme : World := {|
  installed := installed checkout;
  files := fun _ => inr {| df_text := ""; df_read_error := None |}
|}.

(** The checkout with more around it: other modules import, other paths
    open; the import of [setup] and README.rst are as in [checkout]. *)
Definition busy_checkout : World := {|
  installed := fun m n =>
    if String.eqb m "distutils.core" && String.eqb n "setup"
    then inr setup_returns else inr setup_exits;
  files := fun path =>
    if String.eqb path "README.rst"
    then inr {| df_text := readme_text; df_read_error := None |}
    else inr {| df_text := "unrelated"; df_read_error := None |}
|}.

(** ** Streams, paths and callees of a log *)

(** The streams open after the events of [t], given those open before:
    an open adds its path, a close removes it. *)
Fixpoint open_after (opened : list string) (t : list event) : list string :=
  match t with
  | [] => opened
  | EvOpen p :: rest => open_after (p :: opened) rest
  | EvClose p :: rest => open_after (remove string_dec p opened) rest
  | _ :: rest => open_after opened rest
  end.

(** The paths the events of [t] open, read or close, in order. *)
Fixpoint paths_touched (t : list event) : list string :=
  match t with
  | [] => []
  | EvOpen p :: rest | EvRead p _ :: rest | EvClose p :: rest =>
      p :: paths_touched rest
  | _ :: rest => paths_touched rest
  end.


(** ** Runs of the sample environments *)

Example checkout_run :
  setup_py checkout =
  ([EvImport "distutils.core" "setup"; EvOpen "README.rst";
    EvRead "README.rst" readme_text; EvClose "README.rst";
    EvCall "setup" (setup_kwargs readme_text)], inr tt).
Proof. reflexivity. Qed.

Example elsewhere_run :
  setup_py elsewhere
  = ([EvImport "distutils.core" "setup"], inl (PyExn "IOError")).
Proof. reflexivity. Qed.

Example undecodable_run :
  setup_py undecodable
  = ([EvImport "distutils.core" "setup"; EvOpen "README.rst";
      EvClose "README.rst"], inl (PyExn "UnicodeDecodeError")).
Proof. reflexivity. Qed.

Example no_distutils_run :
  setup_py no_distutils = ([], inl (PyExn "ImportError")).
Proof. reflexivity. Qed.

Example other_machine_run :
  setup_py other_machine =
  ([EvImport "distutils.core" "setup"; EvOpen "README.rst";
    EvRead "README.rst" readme_text; EvClose "README.rst";
    EvCall "setup" (setup_kwargs readme_text)], inl (PyExn "SystemExit")).
Proof. reflexivity. Qed.

Example joined_classifier :
  str_in "License :: OSI Approved :: GNU General Public License v3 or later (GPLv3+)"
         (match kw_get "classifiers" (setup_kwargs "") with
          | Some (PList cs) => cs
          | _ => []
          end) = true.
Proof. reflexivity. Qed.

(** ** The shape of every execution *)

Lemma substring_all (s : string) : substring 0 (String.length s) s = s.
Proof.
  induction s as [| c s IH]; simpl; [reflexivity | now rewrite IH].
Qed.

(** A read at position 0 delivers the whole text. *)
Lemma py_read_fresh (path text : string) (w : World) :
  py_read {| fo_name := path; fo_text := text; fo_pos := 0;
             fo_read_error := None |} w
  = ([EvRead path text], inr text).
Proof.
  unfold py_read; simpl. rewrite Nat.sub_0_r, substring_all. reflexivity.
Qed.

Lemma with_open_read (w : World) (d : disk_file) :
  files w "README.rst" = inr d ->
  with_open "README.rst" (fun file => py_read file) w
  = match df_read_error d with
    | Some e => ([EvOpen "README.rst"; EvClose "README.rst"], inl e)
    | None => ([EvOpen "README.rst"; EvRead "README.rst" (df_text d);
                EvClose "README.rst"], inr (df_text d))
    end.
Proof.
  intros Hd. unfold with_open, py_open. rewrite Hd.
  destruct d as [text [e |]]; cbn [df_text df_read_error].
  - reflexivity.
  - rewrite py_read_fresh. reflexivity.
Qed.

Lemma setup_py_shape (w : World) : run_shape w (setup_py w).
Proof.
  unfold setup_py, bind, import_from.
  destruct (installed w "distutils.core" "setup") as [e | f] eqn:Himp.
  - now apply ImportRaises.
  - destruct (files w "README.rst") as [e | d] eqn:Hfile.
    + unfold with_open, py_open. rewrite Hfile. now apply OpenRaises with f.
    + rewrite (with_open_read w d Hfile).
      destruct (df_read_error d) as [e |] eqn:Herr.
      * now apply ReadRaises with f d.
      * unfold py_call. now apply SetupCalled.
Qed.

(** Case analysis on the execution in [w], with the log and the result
    rewritten in every hypothesis and in the goal. *)
Ltac run_cases w :=
  unfold invoked_with, raised_before_setup, trace, result in *;
  let H := fresh "Hrun" in
  pose proof (setup_py_shape w) as H;
  inversion H; subst; clear H;
  match goal with
  | Heq : _ = setup_py w |- _ => try rewrite <- Heq in *; clear Heq
  end;
  try match goal with
      | Hopen : files w "README.rst" = _ |- _ => rewrite Hopen in *
      end;
  try match goal with
      | Hread : df_read_error _ = _ |- _ => rewrite Hread in *
      end;
  simpl in *.

(** Every call of [setup] has the literal arguments, with the text of
    README.rst for [long_description]. *)
Lemma invoked_with_inv (w : World) (kw : kwargs) :
  invoked_with w kw ->
  exists d, files w "README.rst" = inr d /\ df_read_error d = None /\
            kw = setup_kwargs (df_text d).
Proof.
  intros H. run_cases w; try contradiction.
  destruct H as [<- | []]. eauto.
Qed.

Lemma invoked_in_checkout : invoked_with checkout (setup_kwargs readme_text).
Proof. left. reflexivity. Defined.

(** ** The declared contents of the call *)

(** C2: whenever [setup] is called, [install_requires] is the list of
    exactly the two strings 'proxmoxer>=0.1.7' and 'requests>=2.2.0'. *)
Theorem install_requires_exact (w : World) (kw : kwargs) :
  invoked_with w kw ->
  kw_get "install_requires" kw
  = Some (PList [PStr "proxmoxer>=0.1.7"; PStr "requests>=2.2.0"]).
Proof.
  intros H. destruct (invoked_with_inv w kw H) as (d & _ & _ & ->).
  reflexivity.
Qed.

Lemma install_requires_exact_witness :
  invoked_with checkout (setup_kwargs readme_text) /\
  (kw_get "install_requires" (setup_kwargs readme_text)
  = Some (PList [PStr "proxmoxer>=0.1.7"; PStr "requests>=2.2.0"])).
Proof.
  split; [exact invoked_in_checkout |].
  exact (install_requires_exact checkout (setup_kwargs readme_text)
                                invoked_in_checkout).
Defined.

(** C3: whenever [setup] is called, [scripts] lists exactly one script,
    'proxtop', and that is also the distribution's [name]. *)
Theorem one_script_named_as_distribution (w : World) (kw : kwargs) :
  invoked_with w kw ->
  exists n : string,
    kw_get "scripts" kw = Some (PList [PStr n]) /\
    kw_get "name" kw = Some (PStr n) /\
    n = "proxtop".
Proof.
  intros H. destruct (invoked_with_inv w kw H) as (d & _ & _ & ->).
  exists "proxtop". repeat split.
Qed.

Lemma one_script_named_as_distribution_witness :
  invoked_with checkout (setup_kwargs readme_text) /\
  (exists n : string,
    kw_get "scripts" (setup_kwargs readme_text) = Some (PList [PStr n]) /\
    kw_get "name" (setup_kwargs readme_text) = Some (PStr n) /\
    n = "proxtop").
Proof.
  split; [exact invoked_in_checkout |].
  exact (one_script_named_as_distribution checkout (setup_kwargs readme_text)
                                          invoked_in_checkout).
Defined.

(** C4: whenever [setup] is called, [data_files] has one entry: the
    directory 'share/doc/proxtop' with exactly the files 'LICENSE.txt' and
    'README.rst'. *)
Theorem data_files_exact (w : World) (kw : kwargs) :
  invoked_with w kw ->
  kw_get "data_files" kw
  = Some (PList [PTuple [PStr "share/doc/proxtop";
                         PList [PStr "LICENSE.txt"; PStr "README.rst"]]]).
Proof.
  intros H. destruct (invoked_with_inv w kw H) as (d & _ & _ & ->).
  reflexivity.
Qed.

Lemma data_files_exact_witness :
  invoked_with checkout (setup_kwargs readme_text) /\
  (kw_get "data_files" (setup_kwargs readme_text)
  = Some (PList [PTuple [PStr "share/doc/proxtop";
                         PList [PStr "LICENSE.txt"; PStr "README.rst"]]])).
Proof.
  split; [exact invoked_in_checkout |].
  exact (data_files_exact checkout (setup_kwargs readme_text)
                          invoked_in_checkout).
Defined.

(** C5: whenever [setup] is called, [platforms] is exactly ['linux'] and
    the classifiers include both 'Programming Language :: Python :: 2.7'
    and 'Programming Language :: Python :: 3'. *)
Theorem linux_only_python_2_and_3 (w : World) (kw : kwargs) :
  invoked_with w kw ->
  kw_get "platforms" kw = Some (PList [PStr "linux"]) /\
  exists cs : list pyval,
    kw_get "classifiers" kw = Some (PList cs) /\
    str_in "Programming Language :: Python :: 2.7" cs = true /\
    str_in "Programming Language :: Python :: 3" cs = true.
Proof.
  intros H. destruct (invoked_with_inv w kw H) as (d & _ & _ & ->).
  split; [reflexivity |].
  eexists. split; [reflexivity |]. split; reflexivity.
Qed.

Lemma linux_only_python_2_and_3_witness :
  invoked_with checkout (setup_kwargs readme_text) /\
  (kw_get "platforms" (setup_kwargs readme_text) = Some (PList [PStr "linux"]) /\
  exists cs : list pyval,
    kw_get "classifiers" (setup_kwargs readme_text) = Some (PList cs) /\
    str_in "Programming Language :: Python :: 2.7" cs = true /\
    str_in "Programming Language :: Python :: 3" cs = true).
Proof.
  split; [exact invoked_in_checkout |].
  exact (linux_only_python_2_and_3 checkout (setup_kwargs readme_text)
                                   invoked_in_checkout).
Defined.

(** C6: whenever [setup] is called, each of name, version, author,
    license, classifiers and install_requires is among the keyword
    arguments, with a value that is not empty. *)
Theorem contract_fields_supplied (w : World) (kw : kwargs) (key : string) :
  invoked_with w kw ->
  In key contract_fields ->
  supplied key kw = true.
Proof.
  intros H Hkey. destruct (invoked_with_inv w kw H) as (d & _ & _ & ->).
  unfold contract_fields in Hkey. simpl in Hkey.
  repeat (destruct Hkey as [<- | Hkey]; [reflexivity |]).
  contradiction.
Qed.

Lemma contract_fields_supplied_witness :
  invoked_with checkout (setup_kwargs readme_text) /\
  In "classifiers" contract_fields /\
  supplied "classifiers" (setup_kwargs readme_text) = true.
Proof.
  assert (Hkey : In "classifiers" contract_fields)
    by (simpl; do 4 right; left; reflexivity).
  split; [exact invoked_in_checkout |]. split; [exact Hkey |].
  exact (contract_fields_supplied checkout (setup_kwargs readme_text)
                                  "classifiers" invoked_in_checkout Hkey).
Defined.

(** ** Failure paths *)

(** C1, as stated, fails: run from a directory without README.rst, with
    the import resolved, the module raises the exception of [open] and
    [setup] is never called. *)
Lemma missing_readme_raises :
  installed elsewhere "distutils.core" "setup" = inr setup_returns /\
  raised_before_setup elsewhere (PyExn "IOError").
Proof. repeat split. Qed.

(** C1, amended: once the import of [setup] has resolved, the module has
    one failure path of its own, the block that opens and reads README.rst:
    an exception raised before [setup] is called is the one [open] or the
    read raised.  The rest is declarative: every keyword argument other than
    [long_description] has the value its literal gives, in every
    environment. *)
Theorem readme_is_the_only_failure_path (w : World) (f : pyfun) :
  installed w "distutils.core" "setup" = inr f ->
  (forall e : exn,
     raised_before_setup w e ->
     files w "README.rst" = inl e \/
     exists d : disk_file,
       files w "README.rst" = inr d /\ df_read_error d = Some e) /\
  (forall (kw : kwargs) (key : string),
     invoked_with w kw ->
     key <> "long_description" ->
     kw_get key kw = kw_get key (setup_kwargs "")).
Proof.
  intros Himp. split.
  - intros e [Hres Hcalls]. run_cases w.
    + congruence.
    + left. congruence.
    + right. exists d. split; congruence.
    + discriminate.
  - intros kw key H Hkey.
    destruct (invoked_with_inv w kw H) as (d & _ & _ & ->).
    unfold setup_kwargs. cbn [kw_get].
    destruct (String.eqb_spec "long_description" key) as [Heq | _].
    + now subst key.
    + reflexivity.
Qed.

Lemma readme_is_the_only_failure_path_witness :
  installed elsewhere "distutils.core" "setup" = inr setup_returns /\
  raised_before_setup elsewhere (PyExn "IOError") /\
  files elsewhere "README.rst" = inl (PyExn "IOError").
Proof.
  assert (Himp : installed elsewhere "distutils.core" "setup"
                 = inr setup_returns) by reflexivity.
  assert (Hraised : raised_before_setup elsewhere (PyExn "IOError"))
    by (split; reflexivity).
  split; [exact Himp |]. split; [exact Hraised |].
  destruct (proj1 (readme_is_the_only_failure_path elsewhere setup_returns Himp)
                  (PyExn "IOError") Hraised) as [Hopen | (d & Hd & _)].
  - exact Hopen.
  - discriminate Hd.
Defined.

(** C7: when README.rst cannot be opened or cannot be read, the module
    raises and [setup] is never called; [setup] is called exactly when the
    execution's read of README.rst succeeds, and, once the import has
    resolved, exactly when README.rst is readable. *)
Theorem setup_called_iff_readme_read (w : World) :
  (readme_readable w = false ->
   exists e : exn, raised_before_setup w e) /\
  ((exists kw, invoked_with w kw) <->
   (exists s, In s (reads_of "README.rst" (trace w)))) /\
  ((exists f, installed w "distutils.core" "setup" = inr f) ->
   ((exists kw, setup_calls (trace w) = [kw]) <-> readme_readable w = true)).
Proof.
  unfold readme_readable. split; [| split].
  - intros Hno. run_cases w; try discriminate; eauto.
  - run_cases w; split; intros [x Hx]; try contradiction;
      repeat (destruct Hx as [Hx | Hx]; try discriminate; try contradiction);
      eauto.
  - intros [f Himp].
    run_cases w; try congruence;
      (split; [intros [kw Hkw] |]; try discriminate; eauto).
Qed.

Lemma setup_called_iff_readme_read_witness :
  readme_readable undecodable = false /\
  exists e : exn, raised_before_setup undecodable e.
Proof.
  assert (Hno : readme_readable undecodable = false) by reflexivity.
  split; [exact Hno |].
  exact (proj1 (setup_called_iff_readme_read undecodable) Hno).
Defined.

(** ** What [setup] receives *)

(** C8: whenever [setup] is called, the execution read README.rst once,
    the read delivered the whole text of the file, and [long_description]
    is that text. *)
Theorem long_description_is_readme_text (w : World) (kw : kwargs) :
  invoked_with w kw ->
  exists d : disk_file,
    files w "README.rst" = inr d /\
    reads_of "README.rst" (trace w) = [df_text d] /\
    kw_get "long_description" kw = Some (PStr (df_text d)).
Proof.
  intros H. run_cases w; try contradiction.
  destruct H as [<- | []].
  eexists. repeat split.
Qed.

Lemma long_description_is_readme_text_witness :
  invoked_with checkout (setup_kwargs readme_text) /\
  exists d : disk_file,
    files checkout "README.rst" = inr d /\
    reads_of "README.rst" (trace checkout) = [df_text d] /\
    kw_get "long_description" (setup_kwargs readme_text)
    = Some (PStr (df_text d)).
Proof.
  split; [exact invoked_in_checkout |].
  exact (long_description_is_readme_text checkout (setup_kwargs readme_text)
                                         invoked_in_checkout).
Defined.

(** The calls of [setup] are determined by what the read delivered. *)
Lemma calls_of_read (w : World) (s : string) :
  In s (reads_of "README.rst" (trace w)) ->
  setup_calls (trace w) = [setup_kwargs s].
Proof.
  intros H. run_cases w; try contradiction.
  destruct H as [<- | []]. reflexivity.
Qed.

(** C9: two executions whose reads of README.rst deliver the same text
    call [setup] once each, with the same keyword arguments, whatever else
    differs between the two environments. *)
Theorem same_readme_same_arguments (w1 w2 : World) (s : string) :
  In s (reads_of "README.rst" (trace w1)) ->
  In s (reads_of "README.rst" (trace w2)) ->
  exists kw : kwargs,
    setup_calls (trace w1) = [kw] /\ setup_calls (trace w2) = [kw].
Proof.
  intros H1 H2. exists (setup_kwargs s).
  split; apply calls_of_read; assumption.
Qed.

Lemma same_readme_same_arguments_witness :
  In readme_text (reads_of "README.rst" (trace checkout)) /\
  In readme_text (reads_of "README.rst" (trace other_machine)) /\
  exists kw : kwargs,
    setup_calls (trace checkout) = [kw] /\
    setup_calls (trace other_machine) = [kw].
Proof.
  assert (H1 : In readme_text (reads_of "README.rst" (trace checkout)))
    by (left; reflexivity).
  assert (H2 : In readme_text (reads_of "README.rst" (trace other_machine)))
    by (left; reflexivity).
  split; [exact H1 |]. split; [exact H2 |].
  exact (same_readme_same_arguments checkout other_machine readme_text H1 H2).
Defined.

(** ** The stream of README.rst *)

(** Splits a log that is known element by element at every place a call
    event can stand. *)
Ltac split_log H pre :=
  repeat (destruct pre as [| ? pre]; simpl in H;
          [ try discriminate H
          | first [ discriminate H | injection H as ? H; subst ] ]).

(** X1: no execution leaves a stream open: README.rst, once opened, is
    closed again when the module ends, also when the read raised. *)
Theorem no_stream_left_open (w : World) :
  open_after [] (trace w) = [].
Proof.
  run_cases w; reflexivity.
Qed.

Lemma no_stream_left_open_witness :
  In (EvOpen "README.rst") (trace undecodable) /\
  open_after [] (trace undecodable) = [].
Proof.
  split; [right; left; reflexivity |].
  exact (no_stream_left_open undecodable).
Defined.

(** X2: at the moment [setup] is called no stream is open: the
    with-block has closed README.rst before the call. *)
Theorem readme_closed_before_setup
        (w : World) (pre post : list event) (callee : string) (kw : kwargs) :
  trace w = pre ++ EvCall callee kw :: post ->
  open_after [] pre = [] /\ In "README.rst" (paths_touched pre).
Proof.
  intros H. run_cases w; split_log H pre.
  injection H as _ _ _. split; [reflexivity | left; reflexivity].
Qed.

Lemma readme_closed_before_setup_witness :
  trace checkout
  = [EvImport "distutils.core" "setup"; EvOpen "README.rst";
     EvRead "README.rst" readme_text; EvClose "README.rst"]
    ++ EvCall "setup" (setup_kwargs readme_text) :: [] /\
  open_after [] [EvImport "distutils.core" "setup"; EvOpen "README.rst";
                 EvRead "README.rst" readme_text; EvClose "README.rst"] = [] /\
  In "README.rst"
     (paths_touched [EvImport "distutils.core" "setup"; EvOpen "README.rst";
                     EvRead "README.rst" readme_text; EvClose "README.rst"]).
Proof.
  assert (H : trace checkout
              = [EvImport "distutils.core" "setup"; EvOpen "README.rst";
                 EvRead "README.rst" readme_text; EvClose "README.rst"]
                ++ EvCall "setup" (setup_kwargs readme_text) :: [])
    by reflexivity.
  split; [exact H |].
  exact (readme_closed_before_setup checkout _ _ _ _ H).
Defined.

(** ** What the module calls and touches *)




(** Whatever the log opens, reads or closes is README.rst. *)
Lemma touched_is_readme (w : World) (p : string) :
  In p (paths_touched (trace w)) -> p = "README.rst".
Proof.
  intros H. run_cases w; try contradiction;
    repeat (destruct H as [H | H]; [now subst |]); contradiction.
Qed.

(** X5: the only path the module opens, reads or closes is README.rst,
    and it does so only after the import of [setup] has resolved. *)
Theorem touches_only_readme (w : World) (p : string) :
  In p (paths_touched (trace w)) ->
  p = "README.rst" /\
  exists f : pyfun, installed w "distutils.core" "setup" = inr f.
Proof.
  intros H. run_cases w; try contradiction;
    (split; [| eauto]);
    repeat (destruct H as [H | H]; [now subst |]); contradiction.
Qed.

Lemma touches_only_readme_witness :
  In "README.rst" (paths_touched (trace busy_checkout)) /\
  exists f : pyfun, installed busy_checkout "distutils.core" "setup" = inr f.
Proof.
  assert (H : In "README.rst" (paths_touched (trace busy_checkout)))
    by (left; reflexivity).
  split; [exact H |].
  exact (proj2 (touches_only_readme busy_checkout "README.rst" H)).
Defined.



(** X7: the module ends normally exactly when the import resolves,
    README.rst opens and reads, and [setup] returns for the arguments built
    from the text. *)
Theorem completes_iff (w : World) :
  result w = inr tt <->
  exists (f : pyfun) (d : disk_file),
    installed w "distutils.core" "setup" = inr f /\
    files w "README.rst" = inr d /\
    df_read_error d = None /\
    f (setup_kwargs (df_text d)) = inr tt.
Proof.
  split.
  - intros H. run_cases w; try discriminate. eauto 6.
  - intros (f & d & Himp & Hfile & Herr & Hret).
    run_cases w; congruence.
Qed.



(** ** The keyword arguments as a whole *)

(** In a list with pairwise distinct keys, a lookup finds the pair that
    is written. *)
Lemma kw_get_of_member (kw : kwargs) (key : string) (v : pyval) :
  NoDup (map fst kw) -> In (key, v) kw -> kw_get key kw = Some v.
Proof.
  induction kw as [| [k v'] rest IH]; intros Hnd Hin.
  - contradiction.
  - simpl in *. inversion Hnd as [| ? ? Hnotin Hrest]; subst.
    destruct Hin as [Heq | Hin].
    + injection Heq as -> ->. now rewrite String.eqb_refl.
    + destruct (String.eqb_spec k key) as [-> | _].
      * exfalso. apply Hnotin. apply (in_map fst) in Hin. exact Hin.
      * now apply IH.
Qed.

Lemma setup_keywords_distinct (s : string) : NoDup (map fst (setup_kwargs s)).
Proof.
  simpl. repeat constructor; simpl; intuition discriminate.
Qed.

(** X9: a call of [setup] passes thirteen keyword arguments and no
    keyword twice, so every pair the call writes is the one a lookup of
    its keyword returns. *)
Theorem no_keyword_shadowed (w : World) (kw : kwargs) :
  invoked_with w kw ->
  List.length kw = 13 /\
  NoDup (map fst kw) /\
  forall (key : string) (v : pyval), In (key, v) kw -> kw_get key kw = Some v.
Proof.
  intros H. destruct (invoked_with_inv w kw H) as (d & _ & _ & ->).
  pose proof (setup_keywords_distinct (df_text d)) as Hnd.
  split; [reflexivity |]. split; [exact Hnd |].
  intros key v Hin. now apply kw_get_of_member.
Qed.

Lemma no_keyword_shadowed_witness :
  invoked_with checkout (setup_kwargs readme_text) /\
  kw_get "url" (setup_kwargs readme_text)
  = Some (PStr "https://github.com/ossobv/proxtop").
Proof.
  split; [exact invoked_in_checkout |].
  apply (proj2 (proj2 (no_keyword_shadowed checkout (setup_kwargs readme_text)
                                           invoked_in_checkout))).
  simpl. do 8 right. left. reflexivity.
Defined.

(** X10: of the keyword arguments of a call only [long_description] can
    be empty, and it is empty exactly when the text read from README.rst
    is: an empty README.rst is passed on, not refused. *)
Theorem only_long_description_can_be_empty (w : World) (kw : kwargs) :
  invoked_with w kw ->
  exists text : string,
    reads_of "README.rst" (trace w) = [text] /\
    supplied "long_description" kw = negb (String.eqb text "") /\
    forall key : string,
      In key (map fst kw) -> key <> "long_description" ->
      supplied key kw = true.
Proof.
  intros H. run_cases w; try contradiction.
  destruct H as [<- | []].
  exists (df_text d). split; [reflexivity |]. split; [reflexivity |].
  intros key Hkey Hne. simpl in Hkey.
  repeat (destruct Hkey as [<- | Hkey]; [first [reflexivity | congruence] |]).
  contradiction.
Qed.

Lemma only_long_description_can_be_empty_witness :
  invoked_with empty_readme (setup_kwargs "") /\
  exists text : string,
    reads_of "README.rst" (trace empty_readme) = [text] /\
    supplied "long_description" (setup_kwargs "") = negb (String.eqb text "") /\
    forall key : string,
      In key (map fst (setup_kwargs "")) -> key <> "long_description" ->
      supplied key (setup_kwargs "") = true.
Proof.
  assert (H : invoked_with empty_readme (setup_kwargs ""))
    by (left; reflexivity).
  split; [exact H |].
  exact (only_long_description_can_be_empty empty_readme (setup_kwargs "") H).
Defined.

(** X11: the file the module reads for [long_description] is one of the
    files the call lists in [data_files] for installation. *)
Theorem file_read_is_installed (w : World) (kw : kwargs) (p : string) :
  invoked_with w kw ->
  In p (paths_touched (trace w)) ->
  exists (dir : string) (names : list pyval),
    kw_get "data_files" kw = Some (PList [PTuple [PStr dir; PList names]]) /\
    str_in p names = true.
Proof.
  intros H Hp.
  rewrite (touched_is_readme w p Hp).
  destruct (invoked_with_inv w kw H) as (d & _ & _ & ->).
  eexists _, _. split; reflexivity.
Qed.

Lemma file_read_is_installed_witness :
  invoked_with checkout (setup_kwargs readme_text) /\
  In "README.rst" (paths_touched (trace checkout)) /\
  exists (dir : string) (names : list pyval),
    kw_get "data_files" (setup_kwargs readme_text)
    = Some (PList [PTuple [PStr dir; PList names]]) /\
    str_in "README.rst" names = true.
Proof.
  assert (Hp : In "README.rst" (paths_touched (trace checkout)))
    by (left; reflexivity).
  split; [exact invoked_in_checkout |]. split; [exact Hp |].
  exact (file_read_is_installed checkout (setup_kwargs readme_text)
                                "README.rst" invoked_in_checkout Hp).
Defined.
